(** * Booking conflict resolver of the reservation backend

    A shallow embedding of [api/v1/app/services.py] (class [Services]) and of
    the document schema of [api/v1/app/schemas.py], with the properties of the
    booking operation proved over it.

    - Calendar dates are day numbers ([Z], day 0 = 1970-01-01); Python's
      [date] comparison is the order of these numbers.
    - The MongoDB collections are lists of documents in insertion order, the
      Redis instance [r] is a finite map from keys to values, and the hidden
      field [self.__user_id] of the process-wide [service] object is a field
      of the state that is threaded through every call.
    - Library calls whose code is not part of the repository ([strptime],
      [strftime], [str] of a date, the local time zone, [bcrypt.checkpw]) are
      the fields of the class [Platform]; every theorem holds for all of
      them. *)

From stdpp Require Import gmap strings list pretty sorting.

Local Open Scope Z_scope.

(** ** Dates and the platform *)

Definition date := Z.

Class Platform := {
  (** [datetime.strptime(s, "%Y-%m-%d").date()]; [None] is its [ValueError]. *)
  strptime : string → option date;
  (** [str(d)], as interpolated by the f-string of the duplicate error. *)
  isoformat : date → string;
  (** [d.strftime('%A, %d %B, %Y')]. *)
  strftime_long : date → string;
  (** Offset of the server's local time from UTC, in seconds. *)
  utc_offset : Z;
  (** [bcrypt.checkpw(password, hash)]. *)
  checkpw : string → string → bool
}.

(** ** Documents (schemas.py) *)

Record User := mkUser {
  user_id : string;
  role : string;
  email : string;
  password : string
}.

Record Booking := mkBooking {
  booking_id : nat;
  user : option string;
  resource : string;
  start_date : date;
  end_date : date
}.

(** The [data] dictionary of [book_resource]: the three keys it reads. *)
Record BookingData := mkData {
  data_resource : string;
  data_start_date : string;
  data_end_date : string
}.

(** One element of [json.loads(booking.to_json())]: the two [$date] values,
    milliseconds since the epoch. *)
Record BlockedDoc := mkBlocked {
  json_start_date : Z;
  json_end_date : Z
}.

(** ** State: the collections, Redis and the service singleton *)

Record State := mkState {
  bookings : list Booking;
  users : list User;
  r : gmap string string;
  self_user_id : option string;
  next_id : nat
}.

(** [Services.__init__]: [self.__user_id = None]. *)
Definition init_state (bs : list Booking) (us : list User)
    (redis : gmap string string) (n : nat) : State :=
  mkState bs us redis None n.

(** ** Exceptions and results *)

Inductive exn :=
| Exception (msg : string)
(** The [ValueError] of [datetime.strptime] on [data_string]. *)
| StrptimeError (data_string : string)
| ValueError (msg : string)
| IndexError
(** [bson.errors.InvalidId], from [ObjectId(oid)]. *)
| InvalidId (oid : string)
(** [raise RuntimeError(f"{msg}{cause}")] in an [except Exception] clause. *)
| RuntimeError (msg : string) (cause : exn).

Inductive result (A : Type) :=
| Ok (a : A)
| Raise (e : exn).
Arguments Ok {A} a.
Arguments Raise {A} e.

(** Sequencing: an exception of the first statement skips the rest. *)
#[global] Instance result_bind : MBind result := λ A B k m,
  match m with
  | Ok a => k a
  | Raise e => Raise e
  end.

(** [for x in xs: acc = body(x, acc)], stopping at the first exception. *)
Fixpoint for_each {A S} (body : A → S → result S) (xs : list A) (acc : S)
    : result S :=
  match xs with
  | [] => Ok acc
  | x :: xs' => acc' ← body x acc; for_each body xs' acc'
  end.

(** [l[i]] of a Python list, for a non-negative index. *)
Definition index {A} (l : list A) (i : nat) : result A :=
  match l !! i with
  | Some x => Ok x
  | None => Raise IndexError
  end.

(** The two dictionaries [book_resource] returns. *)
Inductive response :=
| BookingSuccessful (id : nat)
| ConflictsFound (conflicts : nat) (available_dates : list (string * string)).

Definition message (resp : response) : string :=
  match resp with
  | BookingSuccessful _ => "Booking successful"
  | ConflictsFound conflicts _ =>
      pretty conflicts +:+
      " Conflicts found! These are the available timeframes. " +:+
      "Beyond these, there are no open reservations."
  end.

(** ** The query layer *)

(** [DateField.to_mongo] stores midnight UTC of the day; [to_json] renders it
    as [{"$date": milliseconds}]. *)
Definition to_json_date (d : date) : Z := d * 86400000.

Definition to_json (b : Booking) : BlockedDoc :=
  mkBlocked (to_json_date (start_date b)) (to_json_date (end_date b)).

(** [.order_by('start_date')]: ascending, ties in insertion order. *)
Fixpoint insert_by_start (b : Booking) (l : list Booking) : list Booking :=
  match l with
  | [] => [b]
  | c :: l' =>
      if decide (start_date b ≤ start_date c) then b :: c :: l'
      else c :: insert_by_start b l'
  end.

Definition order_by_start_date (l : list Booking) : list Booking :=
  foldr insert_by_start [] l.

(** [Booking.objects(resource=res, start_date=s, end_date=e)]. *)
Definition objects_exact (res : string) (s e : date) (bs : list Booking)
    : list Booking :=
  filter (λ b, resource b = res ∧ start_date b = s ∧ end_date b = e) bs.

(** [Booking.objects(resource=res, start_date__gte=today)
      .only('start_date', 'end_date').order_by('start_date')]. *)
Definition objects_open (res : string) (today : date) (bs : list Booking)
    : list Booking :=
  order_by_start_date
    (filter (λ b, resource b = res ∧ today ≤ start_date b) bs).

(** Truth value of a QuerySet: it has a first document. *)
Definition has_data {A} (q : list A) : bool :=
  match q with
  | [] => false
  | _ :: _ => true
  end.

Section Services.
Context `{Platform}.

(** [datetime.fromtimestamp(ms / 1000).date()]: the local calendar day of the
    instant.  [ms / 1000] is a float in the source; the day of the instant is
    the same for the rounded-down seconds. *)
Definition fromtimestamp_date (ms : Z) : date :=
  (ms / 1000 + utc_offset) / 86400.

(** The overlap test of the walk (services.py line 202). *)
Definition conflicting (curr_start curr_end new_start new_end : date) : Prop :=
  curr_start ≤ new_start < curr_end ∨ curr_start ≤ new_end < curr_end.

#[global] Instance conflicting_dec cs ce ns ne :
  Decision (conflicting cs ce ns ne).
Proof. unfold conflicting. apply _. Defined.

(** The body of [for i in range(len(blocked))]; the accumulator is
    [(conflicts, available_dates)]. *)
Definition loop_body (new_start new_end : date) (blocked : list BlockedDoc)
    (size : nat) (i : nat) (acc : nat * list (string * string))
    : result (nat * list (string * string)) :=
  let '(conflicts, available_dates) := acc in
  curr ← index blocked i;
  let curr_start := fromtimestamp_date (json_start_date curr) in
  let curr_end := fromtimestamp_date (json_end_date curr) in
  let conflicts :=
    if decide (conflicting curr_start curr_end new_start new_end)
    then (conflicts + 1)%nat else conflicts in
  if decide (Z.of_nat size - Z.of_nat i = 1) then
    Ok (conflicts, available_dates)
  else
    next ← index blocked (i + 1);
    let next_start := fromtimestamp_date (json_start_date next) in
    if decide (curr_end ≤ next_start) then
      Ok (conflicts,
          available_dates ++
            [(strftime_long curr_end, strftime_long next_start)])
    else
      Ok (conflicts, available_dates).

(** Lines 186-213: the walk over [blocked]. *)
Definition walk (new_start new_end : date) (blocked : list BlockedDoc)
    : result (nat * list (string * string)) :=
  let size := length blocked in
  for_each (loop_body new_start new_end blocked size)
           (seq 0 (length blocked)) (0%nat, []).

(** [Booking(user=self.__user_id, **data).save()]: the document layer turns
    the two date strings into the calendar dates they denote, and the store
    assigns the identifier. *)
Definition save_booking (data : BookingData) (new_start new_end : date)
    (st : State) : Booking * State :=
  let b := mkBooking (next_id st) (self_user_id st) (data_resource data)
                     new_start new_end in
  (b, mkState (bookings st ++ [b]) (users st) (r st) (self_user_id st)
              (S (next_id st))).

Definition commit (data : BookingData) (new_start new_end : date)
    (st : State) : result response * State :=
  let '(b, st') := save_booking data new_start new_end st in
  (Ok (BookingSuccessful (booking_id b)), st').

(** [Services.book_resource]; [today] is the value of [date.today()]. *)
Definition book_resource (today : date) (data : BookingData) (st : State)
    : result response * State :=
  match strptime (data_start_date data) with
  | None => (Raise (StrptimeError (data_start_date data)), st)
  | Some new_start =>
  match strptime (data_end_date data) with
  | None => (Raise (StrptimeError (data_end_date data)), st)
  | Some new_end =>
    if decide (today > new_start ∨ today > new_end) then
      (Raise (Exception "You cannot book a past date"), st)
    else if has_data (objects_exact (data_resource data) new_start new_end
                                    (bookings st)) then
      (Raise (Exception ("The resource is already booking from " +:+
                         isoformat new_start +:+ " to " +:+
                         isoformat new_end)), st)
    else
      let booking := objects_open (data_resource data) today (bookings st) in
      if has_data booking then
        let blocked := to_json <$> booking in
        match walk new_start new_end blocked with
        | Raise e => (Raise e, st)
        | Ok (conflicts, available_dates) =>
            if decide (conflicts = 0%nat) then commit data new_start new_end st
            else (Ok (ConflictsFound conflicts available_dates), st)
        end
      else commit data new_start new_end st
  end
  end.

(** [ObjectId(s)] accepts a string of 24 hexadecimal digits. *)
Definition is_hex_digit (c : Ascii.ascii) : bool :=
  let n := Ascii.nat_of_ascii c in
  ((48 <=? n) && (n <=? 57) || (65 <=? n) && (n <=? 70) ||
   (97 <=? n) && (n <=? 102))%nat.

Definition ObjectId_is_valid (s : string) : bool :=
  (String.length s =? 24)%nat &&
  forallb is_hex_digit (String.list_ascii_of_string s).

(** [Services.get_user_from_session_id].  A missing key and an empty value
    both take the [if not user_id] branch.  The assignment to
    [self.__user_id] comes before the user query, so it stays when the query
    raises or finds nobody. *)
Definition get_user_from_session_id (session_id : string) (st : State)
    : result (option User) * State :=
  match r st !! ("auth_" +:+ session_id) with
  | None => (Ok None, st)
  | Some uid =>
      if decide (uid = EmptyString) then (Ok None, st)
      else
        let st' := mkState (bookings st) (users st) (r st) (Some uid)
                           (next_id st) in
        if ObjectId_is_valid uid then
          (Ok (head (filter (λ u, user_id u = uid) (users st))), st')
        else
          (Raise (RuntimeError
                    ("Error getting user from session id " +:+ session_id +:+
                     ": ") (InvalidId uid)), st')
  end.

(** [Services.find_user]. *)
Definition find_user (mail : string) (st : State) : option User :=
  head (filter (λ u, email u = mail) (users st)).

(** [Services.login]; [uuid] is the value of [str(uuid4())]. *)
Definition login (mail pass uuid : string) (st : State)
    : result string * State :=
  match find_user mail st with
  | Some u =>
      if checkpw pass (password u) then
        (Ok uuid,
         mkState (bookings st) (users st)
                 (<["auth_" +:+ uuid := user_id u]> (r st))
                 (self_user_id st) (next_id st))
      else
        (Raise (RuntimeError "Login failed: "
                             (ValueError "Invalid email or password")), st)
  | None =>
      (Raise (RuntimeError "Login failed: "
                           (ValueError "Invalid email or password")), st)
  end.

(** [convert_json]: the document with its two dates in ISO form. *)
Definition convert_json (b : Booking) : Booking * string * string :=
  (b, isoformat (start_date b), isoformat (end_date b)).

(** [Services.list_bookings]:
    [Booking.objects(user=self.__user_id, end_date__gte=today)]. *)
Definition list_bookings (today : date) (st : State)
    : list (Booking * string * string) :=
  convert_json <$>
    filter (λ b, user b = self_user_id st ∧ today ≤ end_date b) (bookings st).

End Services.

(** ** Specification-level views of the walk *)

Section Views.
Context `{Platform}.

(** The dates the walk reads off one fetched document. *)
Definition curr_start_of (d : BlockedDoc) : date :=
  fromtimestamp_date (json_start_date d).

Definition curr_end_of (d : BlockedDoc) : date :=
  fromtimestamp_date (json_end_date d).

(** Number of fetched reservations the overlap rule fires on. *)
Definition conflict_count (new_start new_end : date)
    (blocked : list BlockedDoc) : nat :=
  length (filter (λ d, conflicting (curr_start_of d) (curr_end_of d)
                                   new_start new_end) blocked).

(** The consecutive pairs [(curr, next)] of a sequence, in order. *)
Definition consecutive {A} (l : list A) : list (A * A) := zip l (tail l).

(** The gap rule in the words of the design: one gap [(curr_end, next_start)]
    for each consecutive pair with [curr_end ≤ next_start]. *)
Definition gaps (blocked : list BlockedDoc) : list (date * date) :=
  (λ p, (curr_end_of p.1, curr_start_of p.2)) <$>
    filter (λ p, curr_end_of p.1 ≤ curr_start_of p.2) (consecutive blocked).

(** A gap as it is appended to [available_dates]. *)
Definition render (g : date * date) : string * string :=
  (strftime_long g.1, strftime_long g.2).

(** "Every date of the later gap is on or after every date of the earlier
    one." *)
Definition gap_le (g g' : date * date) : Prop :=
  g.1 ≤ g'.1 ∧ g.1 ≤ g'.2 ∧ g.2 ≤ g'.1 ∧ g.2 ≤ g'.2.

#[global] Instance gap_le_dec : RelDecision gap_le.
Proof. intros g g'. unfold gap_le. apply _. Defined.

(** Ascending order of start dates, as the walk reads them. *)
Definition start_le (d d' : BlockedDoc) : Prop :=
  curr_start_of d ≤ curr_start_of d'.

(** Ascending order of start dates, as they are stored. *)
Definition booking_start_le (a b : Booking) : Prop :=
  start_date a ≤ start_date b.

(** ** Calls on the service singleton *)

Inductive call :=
| CallLogin (mail pass uuid : string)
| CallSession (session_id : string)
| CallBook (today : date) (data : BookingData)
| CallList (today : date).

Definition step (st : State) (c : call) : State :=
  match c with
  | CallLogin mail pass uuid => (login mail pass uuid st).2
  | CallSession session_id => (get_user_from_session_id session_id st).2
  | CallBook today data => (book_resource today data st).2
  | CallList _ => st
  end.

Definition run (st : State) (cs : list call) : State := foldl step st cs.

(** The identifier found by a session lookup, if it finds one. *)
Definition session_hit (session_id : string) (st : State) : option string :=
  match r st !! ("auth_" +:+ session_id) with
  | Some uid => if decide (uid = EmptyString) then None else Some uid
  | None => None
  end.

(** The identifier found by the most recent successful session lookup of a
    sequence of calls; [seen] is the one found before that sequence. *)
Fixpoint last_lookup (seen : option string) (st : State) (cs : list call)
    : option string :=
  match cs with
  | [] => seen
  | c :: cs' =>
      let seen' :=
        match c with
        | CallSession session_id =>
            match session_hit session_id st with
            | Some uid => Some uid
            | None => seen
            end
        | _ => seen
        end in
      last_lookup seen' (step st c) cs'
  end.

End Views.

(** ** A concrete platform: the Gregorian calendar on a UTC server

    The examples below run the service on this instance.  Its [strptime]
    accepts the zero-padded form [YYYY-MM-DD] of a valid date, which is the
    wire format of the booking request. *)

Module Calendar.

Definition is_leap (y : Z) : bool :=
  (y mod 4 =? 0) && negb (y mod 100 =? 0) || (y mod 400 =? 0).

Definition days_in_month (y m : Z) : Z :=
  if m =? 2 then (if is_leap y then 29 else 28)
  else if (m =? 4) || (m =? 6) || (m =? 9) || (m =? 11) then 30
  else 31.

(** Day number of the civil date [y-m-d] (day 0 is 1970-01-01). *)
Definition days_from_civil (y m d : Z) : Z :=
  let y' := if m <=? 2 then y - 1 else y in
  let era := y' / 400 in
  let yoe := y' - era * 400 in
  let doy := (153 * (if 2 <? m then m - 3 else m + 9) + 2) / 5 + d - 1 in
  let doe := yoe * 365 + yoe / 4 - yoe / 100 + doy in
  era * 146097 + doe - 719468.

(** Civil date [(y, m, d)] of a day number. *)
Definition civil_from_days (z : Z) : Z * Z * Z :=
  let z := z + 719468 in
  let era := z / 146097 in
  let doe := z - era * 146097 in
  let yoe := (doe - doe / 1460 + doe / 36524 - doe / 146096) / 365 in
  let doy := doe - (365 * yoe + yoe / 4 - yoe / 100) in
  let mp := (5 * doy + 2) / 153 in
  let d := doy - (153 * mp + 2) / 5 + 1 in
  let m := if mp <? 10 then mp + 3 else mp - 9 in
  (if m <=? 2 then yoe + era * 400 + 1 else yoe + era * 400, m, d).

Definition digit (c : Ascii.ascii) : option Z :=
  let n := Z.of_nat (Ascii.nat_of_ascii c) in
  if (48 <=? n) && (n <=? 57) then Some (n - 48) else None.

Definition dash (c : Ascii.ascii) : bool :=
  (Ascii.nat_of_ascii c =? 45)%nat.

Definition iso_strptime (s : string) : option date :=
  match String.list_ascii_of_string s with
  | [y1; y2; y3; y4; s1; m1; m2; s2; d1; d2] =>
      a ← digit y1; b ← digit y2; c ← digit y3; d ← digit y4;
      e ← digit m1; f ← digit m2; g ← digit d1; h ← digit d2;
      let y := 1000 * a + 100 * b + 10 * c + d in
      let m := 10 * e + f in
      let dd := 10 * g + h in
      if dash s1 && dash s2 && (1 <=? y) && (1 <=? m) && (m <=? 12) &&
         (1 <=? dd) && (dd <=? days_in_month y m)
      then Some (days_from_civil y m dd) else None
  | _ => None
  end.

Definition pad2 (n : Z) : string :=
  if n <? 10 then "0" +:+ pretty n else pretty n.

Definition pad4 (n : Z) : string :=
  if n <? 10 then "000" +:+ pretty n
  else if n <? 100 then "00" +:+ pretty n
  else if n <? 1000 then "0" +:+ pretty n
  else pretty n.

Definition iso_format (z : date) : string :=
  let '(y, m, d) := civil_from_days z in
  pad4 y +:+ "-" +:+ pad2 m +:+ "-" +:+ pad2 d.

Definition weekday_name (z : date) : string :=
  nth (Z.to_nat ((z + 4) mod 7))
      ["Sunday"; "Monday"; "Tuesday"; "Wednesday"; "Thursday"; "Friday";
       "Saturday"] EmptyString.

Definition month_name (m : Z) : string :=
  nth (Z.to_nat (m - 1))
      ["January"; "February"; "March"; "April"; "May"; "June"; "July";
       "August"; "September"; "October"; "November"; "December"] EmptyString.

Definition long_format (z : date) : string :=
  let '(y, m, d) := civil_from_days z in
  weekday_name z +:+ ", " +:+ pad2 d +:+ " " +:+ month_name m +:+ ", " +:+
  pretty y.

(** Password hashes are not exercised by the booking examples. *)
Definition utc : Platform :=
  {| strptime := iso_strptime;
     isoformat := iso_format;
     strftime_long := long_format;
     utc_offset := 0;
     checkpw := String.eqb |}.

End Calendar.

(** ** Fixtures of the examples: one hall, June 2025, on the UTC server *)

Module Scenario.

Definition may (d : Z) : date := Calendar.days_from_civil 2025 5 d.
Definition june (d : Z) : date := Calendar.days_from_civil 2025 6 d.

Definition hall : string := "64b7f0c2a1d3e4f5a6b7c8d9".
Definition alice : string := "64b7f0c2a1d3e4f5a6b7c001".

Definition request (s e : string) : BookingData := mkData hall s e.

(** A service that has just started, over empty collections. *)
Definition fresh : State := init_state [] [] ∅ 0.

(** A store that holds one reservation of the hall. *)
Definition holding (s e : date) : State :=
  mkState [mkBooking 0 (Some alice) hall s e] [] ∅ None 1.

(** A fresh service and a Redis that knows one session of [alice]. *)
Definition with_session : State :=
  init_state [] [mkUser alice "user" "alice@example.org" "secret"]
             {["auth_7d1c" := alice]} 0.

(** Three requests that are accepted one after the other on 1 June; the
    first has its end date before its start date. *)
Definition three_calls : list call :=
  [CallBook (june 1) (request "2025-06-05" "2025-06-02");
   CallBook (june 1) (request "2025-06-01" "2025-06-04");
   CallBook (june 1) (request "2025-06-06" "2025-06-07")].

End Scenario.

(** Closed goals over the concrete platform are settled by evaluation. *)
Ltac evaluate := vm_compute; first [reflexivity | discriminate | done].

(** ** Account creation (services.py, [create_user]) *)

Class Hashing := {
  (** [bcrypt.hashpw(password, salt)], for the salt that [bcrypt.gensalt()]
      returned. *)
  hashpw : string → string → string
}.

(** The exception that the [except] clause of [create_user] re-raises as
    [RuntimeError(f"Failed to create user: {e}")]. *)
Inductive create_user_failure :=
| KeyError (key : string)
(** [ValueError('User already exists')]. *)
| UserAlreadyExists
(** The [ValidationError] of [user.save()] for a value outside [choices]. *)
| ValidationError (field : string).

Section Accounts.
Context `{Platform} `{Hashing}.

(** [Services.user_exists]. *)
Definition user_exists (mail : string) (st : State) : bool :=
  match head (filter (λ u, email u = mail) (users st)) with
  | Some _ => true
  | None => false
  end.

(** [Services._hash_password]. *)
Definition _hash_password (pass salt : string) : string := hashpw pass salt.

(** [choices] of the field [role] of [User]. *)
Definition role_choices : list string := ["admin"; "user"].

(** [Services.create_user].  [data] is a dictionary with string values (a
    form, or a JSON object of strings); [oid] is the identifier the store
    assigns to the new document and [salt] the value of [bcrypt.gensalt()].
    A [role] that is absent takes the default of the field.  The fields
    [first_name] and [last_name] must be present; they are written and never
    read back by the service, and the state keeps the fields that are. *)
Definition create_user (data : gmap string string) (oid salt : string)
    (st : State) : (create_user_failure + string * string) * State :=
  match data !! "email" with
  | None => (inl (KeyError "email"), st)
  | Some mail =>
    if user_exists mail st then (inl UserAlreadyExists, st)
    else
      match data !! "password" with
      | None => (inl (KeyError "password"), st)
      | Some pass =>
        let hashed_password := _hash_password pass salt in
        match data !! "first_name" with
        | None => (inl (KeyError "first_name"), st)
        | Some _ =>
          match data !! "last_name" with
          | None => (inl (KeyError "last_name"), st)
          | Some _ =>
            let role := default "user" (data !! "role") in
            if decide (role ∈ role_choices) then
              (inr (oid, mail),
               mkState (bookings st)
                       (users st ++ [mkUser oid role mail hashed_password])
                       (r st) (self_user_id st) (next_id st))
            else (inl (ValidationError "role"), st)
          end
        end
      end
  end.

End Accounts.

(** ** The HTTP layer (routes.py) *)

Module Routes.

(** What the decorator and the listing view read of the Flask request. *)
Record Request := mkRequest {
  (** [request.headers.get("X-Token")]. *)
  x_token : option string
}.

(** The JSON bodies of the responses. *)
Inductive body :=
(** [{"error": msg}] for a message written in the view. *)
| Error (msg : string)
| Bookings (bookings : list (Booking * string * string)).

(** A response: the body and the status code. *)
Definition http_response : Type := body * Z.

Section Handlers.
Context `{Platform}.

(** The decorator [role_required(role)] around a view [f].  An exception of
    the session lookup leaves the view uncaught. *)
Definition role_required (required : string)
    (f : Request → State → result http_response * State)
    (req : Request) (st : State) : result http_response * State :=
  match x_token req with
  | None => (Ok (Error "Kindly Provide Your Access Token", 401), st)
  | Some session_id =>
      if decide (session_id = EmptyString) then
        (Ok (Error "Kindly Provide Your Access Token", 401), st)
      else
        match get_user_from_session_id session_id st with
        | (Raise e, st') => (Raise e, st')
        | (Ok None, st') =>
            (Ok (Error "Access Token Not Found or Expired", 404), st')
        | (Ok (Some u), st') =>
            if decide (role u = required) then f req st'
            else (Ok (Error "Authorized access only", 401), st')
        end
  end.

(** The view [list_booking]; [today] as for [list_bookings].  The listing
    raises nothing here, so the [except] clause of the view is not taken. *)
Definition list_booking (today : date)
    : Request → State → result http_response * State :=
  role_required "user"
    (λ _ st, (Ok (Bookings (list_bookings today st), 200), st)).

End Handlers.

End Routes.

(** Fixtures of the further examples: hashes that are the password itself,
    checked by [String.eqb] on the example platform. *)
Module Accounts.

Definition plain : Hashing := {| hashpw := λ pass _, pass |}.

Definition bob : string := "64b7f0c2a1d3e4f5a6b7c002".

Definition registration (mail pass who : string) : gmap string string :=
  {["email" := mail; "password" := pass; "first_name" := "Bob";
    "last_name" := "Builder"; "role" := who]}.

(** A service that has just started, with one registered user. *)
Definition registered : State :=
  init_state []
    [mkUser Scenario.alice "user" "alice@example.org" "secret"] ∅ 0.

(** The same user with a session, one reservation of hers and one of
    somebody else. *)
Definition in_use : State :=
  mkState
    [mkBooking 0 (Some Scenario.alice) Scenario.hall
               (Scenario.june 10) (Scenario.june 20);
     mkBooking 1 (Some bob) Scenario.hall
               (Scenario.june 21) (Scenario.june 22)]
    [mkUser Scenario.alice "user" "alice@example.org" "secret"]
    {["auth_7d1c" := Scenario.alice]} None 2.

Definition with_token (token : string) : Routes.Request :=
  Routes.mkRequest (Some token).

(** The example platform moved five hours west of UTC. *)
Definition new_york : Platform :=
  {| strptime := Calendar.iso_strptime;
     isoformat := Calendar.iso_format;
     strftime_long := Calendar.long_format;
     utc_offset := -18000;
     checkpw := String.eqb |}.

End Accounts.

(** * Properties *)

(** ** The example calendar *)

Example strptime_2025_06_01 : Calendar.iso_strptime "2025-06-01" = Some 20240.
Proof. vm_compute. reflexivity. Qed.

Example long_format_2025_05_05 :
  (d ← Calendar.iso_strptime "2025-05-05"; Some (Calendar.long_format d)) =
  Some "Monday, 05 May, 2025".
Proof. vm_compute. reflexivity. Qed.

(** The value quoted in the source next to [curr_start]. *)
Example to_json_2025_03_05 :
  to_json_date <$> Calendar.iso_strptime "2025-03-05" = Some 1741132800000.
Proof. vm_compute. reflexivity. Qed.

Example iso_format_roundtrip :
  Calendar.iso_format <$> Calendar.iso_strptime "2024-02-29" = Some "2024-02-29".
Proof. vm_compute. reflexivity. Qed.

Example strptime_rejects_feb_30 : Calendar.iso_strptime "2025-02-30" = None.
Proof. vm_compute. reflexivity. Qed.

(** ** What the walk computes *)

Section Walk.
Context `{Platform}.

Lemma index_app_length {A} (pre : list A) x rest :
  index (pre ++ x :: rest) (length pre) = Ok x.
Proof. unfold index. by rewrite list_lookup_middle. Qed.

Lemma conflict_count_cons ns ne d rest :
  conflict_count ns ne (d :: rest) =
  ((if decide (conflicting (curr_start_of d) (curr_end_of d) ns ne)
    then 1 else 0) + conflict_count ns ne rest)%nat.
Proof.
  unfold conflict_count. rewrite filter_cons.
  by destruct (decide _).
Qed.

Lemma gaps_cons_cons d d' rest :
  gaps (d :: d' :: rest) =
  (if decide (curr_end_of d ≤ curr_start_of d')
   then [(curr_end_of d, curr_start_of d')] else []) ++ gaps (d' :: rest).
Proof.
  unfold gaps, consecutive. simpl. rewrite filter_cons. simpl.
  by destruct (decide _).
Qed.

(** One iteration, at the document [d] that follows [pre]. *)
Lemma loop_body_at ns ne pre d rest c av :
  loop_body ns ne (pre ++ d :: rest) (length (pre ++ d :: rest))
            (length pre) (c, av) =
  Ok ((c + (if decide (conflicting (curr_start_of d) (curr_end_of d) ns ne)
            then 1 else 0))%nat,
      av ++ match rest with
            | [] => []
            | d' :: _ =>
                if decide (curr_end_of d ≤ curr_start_of d')
                then [render (curr_end_of d, curr_start_of d')] else []
            end).
Proof.
  unfold loop_body. rewrite index_app_length. cbn [mbind result_bind].
  fold (curr_start_of d) (curr_end_of d).
  assert (Hc : ∀ P (D : Decision P),
             (if D then (c + 1)%nat else c) = (c + (if D then 1 else 0))%nat)
    by (intros P [|]; lia).
  rewrite Hc. destruct rest as [|d' rest].
  - rewrite decide_True by (rewrite length_app; simpl; lia).
    by rewrite app_nil_r.
  - rewrite decide_False by (rewrite length_app; simpl; lia).
    replace (pre ++ d :: d' :: rest) with ((pre ++ [d]) ++ d' :: rest) by
      (by rewrite <- app_assoc).
    replace (length pre + 1)%nat with (length (pre ++ [d])) by
      (rewrite length_app; simpl; lia).
    rewrite index_app_length. cbn [mbind result_bind].
    fold (curr_start_of d').
    destruct (decide (curr_end_of d ≤ curr_start_of d')); [done|].
    by rewrite app_nil_r.
Qed.

(** The loop from index [length pre] on, over the remaining documents. *)
Lemma for_each_loop_body ns ne rest : ∀ pre c av,
  for_each (loop_body ns ne (pre ++ rest) (length (pre ++ rest)))
           (seq (length pre) (length rest)) (c, av) =
  Ok ((c + conflict_count ns ne rest)%nat, av ++ (render <$> gaps rest)).
Proof.
  induction rest as [|d rest IH]; intros pre c av.
  - simpl. by rewrite Nat.add_0_r, app_nil_r.
  - cbn [length seq for_each]. rewrite loop_body_at.
    cbn [mbind result_bind].
    replace (pre ++ d :: rest) with ((pre ++ [d]) ++ rest) by
      (by rewrite <- app_assoc).
    replace (S (length pre)) with (length (pre ++ [d])) by
      (rewrite length_app; simpl; lia).
    rewrite IH, conflict_count_cons. f_equal. f_equal; [lia|].
    rewrite <- app_assoc. f_equal.
    destruct rest as [|d' rest]; [done|].
    rewrite gaps_cons_cons, fmap_app.
    by destruct (decide _).
Qed.

(** The walk never raises, and returns the counter and the rendered gaps. *)
Lemma walk_spec ns ne blocked :
  walk ns ne blocked =
  Ok (conflict_count ns ne blocked, render <$> gaps blocked).
Proof.
  unfold walk. apply (for_each_loop_body ns ne blocked [] 0%nat []).
Qed.

End Walk.


(** ** The query layer *)

Lemma insert_by_start_perm b l : insert_by_start b l ≡ₚ b :: l.
Proof.
  induction l as [|c l IH]; simpl; [done|].
  destruct (decide _); [done|].
  rewrite IH. apply Permutation_swap.
Qed.

Lemma order_by_start_date_perm l : order_by_start_date l ≡ₚ l.
Proof.
  induction l as [|b l IH]; simpl; [done|].
  by rewrite insert_by_start_perm, IH.
Qed.

Lemma insert_by_start_sorted b l :
  StronglySorted booking_start_le l →
  StronglySorted booking_start_le (insert_by_start b l).
Proof.
  induction 1 as [|c l Hl IH Hc]; simpl.
  - repeat constructor.
  - destruct (decide (start_date b ≤ start_date c)) as [Hle|Hgt].
    + constructor; [by constructor|].
      constructor; [done|].
      eapply Forall_impl; [exact Hc|].
      unfold booking_start_le. intros x Hx. lia.
    + constructor; [done|].
      rewrite insert_by_start_perm. constructor; [|done].
      unfold booking_start_le. lia.
Qed.

Lemma order_by_start_date_sorted l :
  StronglySorted booking_start_le (order_by_start_date l).
Proof.
  induction l as [|b l IH]; simpl; [constructor|].
  by apply insert_by_start_sorted.
Qed.

Lemma elem_of_objects_open res today bs b :
  b ∈ objects_open res today bs ↔
  b ∈ bs ∧ resource b = res ∧ today ≤ start_date b.
Proof.
  unfold objects_open. rewrite order_by_start_date_perm.
  rewrite list_elem_of_filter. tauto.
Qed.

Lemma elem_of_objects_exact res s e bs b :
  b ∈ objects_exact res s e bs ↔
  b ∈ bs ∧ resource b = res ∧ start_date b = s ∧ end_date b = e.
Proof. unfold objects_exact. rewrite list_elem_of_filter. tauto. Qed.

Lemma has_data_elem_of {A} (q : list A) x : x ∈ q → has_data q = true.
Proof. destruct q; [by rewrite elem_of_nil|done]. Qed.

Lemma has_data_false {A} (q : list A) : has_data q = false → q = [].
Proof. by destruct q. Qed.

Section Decoding.
Context `{Platform}.

(** Reading a stored date back shifts it by the whole days of the offset:
    not at all on a server at or east of UTC, by one day west of it. *)
Lemma fromtimestamp_to_json d :
  fromtimestamp_date (to_json_date d) = d + utc_offset / 86400.
Proof.
  unfold fromtimestamp_date, to_json_date.
  replace (d * 86400000) with (d * 86400 * 1000) by lia.
  rewrite Z.div_mul by lia.
  rewrite Z.div_add_l by lia. done.
Qed.

Lemma curr_start_of_to_json b :
  curr_start_of (to_json b) = start_date b + utc_offset / 86400.
Proof. apply fromtimestamp_to_json. Qed.

Lemma curr_end_of_to_json b :
  curr_end_of (to_json b) = end_date b + utc_offset / 86400.
Proof. apply fromtimestamp_to_json. Qed.

Lemma to_json_sorted l :
  StronglySorted booking_start_le l →
  StronglySorted start_le (to_json <$> l).
Proof.
  induction 1 as [|b l Hl IH Hb]; simpl; constructor; [done|].
  rewrite Forall_fmap. eapply Forall_impl; [exact Hb|].
  intros x Hx. unfold start_le. simpl.
  rewrite !curr_start_of_to_json. unfold booking_start_le in Hx. lia.
Qed.

(** The sequence the walk receives is in ascending order of start date. *)
Lemma fetched_sorted res today bs :
  StronglySorted start_le (to_json <$> objects_open res today bs).
Proof. apply to_json_sorted, order_by_start_date_sorted. Qed.

End Decoding.

(** ** The booking operation *)

Section Booking.
Context `{Platform}.

Lemma conflict_count_nil ns ne : conflict_count ns ne [] = 0%nat.
Proof. done. Qed.

(** Past the two guards, the outcome is decided by the walk alone. *)
Lemma book_resource_walked today data st ns ne :
  strptime (data_start_date data) = Some ns →
  strptime (data_end_date data) = Some ne →
  today ≤ ns → today ≤ ne →
  objects_exact (data_resource data) ns ne (bookings st) = [] →
  book_resource today data st =
  let blocked :=
    to_json <$> objects_open (data_resource data) today (bookings st) in
  if decide (conflict_count ns ne blocked = 0%nat)
  then commit data ns ne st
  else (Ok (ConflictsFound (conflict_count ns ne blocked)
                           (render <$> gaps blocked)), st).
Proof.
  intros Hs He Hns Hne Hex. unfold book_resource.
  rewrite Hs, He, Hex. rewrite decide_False by lia. cbn [has_data].
  destruct (objects_open _ _ _) as [|b bs] eqn:E; cbn [has_data].
  - done.
  - by rewrite walk_spec.
Qed.

(** The five ways the operation can end. *)
Lemma book_resource_cases today data st :
  (∃ e, book_resource today data st = (Raise e, st)) ∨
  (∃ ns ne,
      strptime (data_start_date data) = Some ns ∧
      strptime (data_end_date data) = Some ne ∧
      today ≤ ns ∧ today ≤ ne ∧
      objects_exact (data_resource data) ns ne (bookings st) = [] ∧
      let blocked :=
        to_json <$> objects_open (data_resource data) today (bookings st) in
      (conflict_count ns ne blocked = 0%nat ∧
       book_resource today data st = commit data ns ne st) ∨
      (conflict_count ns ne blocked ≠ 0%nat ∧
       book_resource today data st =
       (Ok (ConflictsFound (conflict_count ns ne blocked)
                           (render <$> gaps blocked)), st))).
Proof.
  destruct (strptime (data_start_date data)) as [ns|] eqn:Hs;
    [|left; eexists; unfold book_resource; by rewrite Hs].
  destruct (strptime (data_end_date data)) as [ne|] eqn:He;
    [|left; eexists; unfold book_resource; by rewrite Hs, He].
  destruct (decide (today > ns ∨ today > ne)) as [Hpast|Hok].
  { left. eexists. unfold book_resource. rewrite Hs, He.
    by rewrite decide_True. }
  destruct (has_data (objects_exact (data_resource data) ns ne (bookings st)))
    eqn:Hex.
  { left. eexists. unfold book_resource. rewrite Hs, He.
    rewrite decide_False by done. by rewrite Hex. }
  apply has_data_false in Hex.
  right. exists ns, ne. repeat split; [lia|lia|done|].
  intros blocked.
  rewrite (book_resource_walked today data st ns ne) by (done || lia).
  cbv zeta. fold blocked.
  destruct (decide (conflict_count ns ne blocked = 0%nat)); [left|right];
    split; done.
Qed.

(** C5: a request whose start date or end date is strictly before today
    fails with the error "You cannot book a past date", and the state after
    the call is the state before it, whatever reservations the store holds. *)
Theorem book_resource_rejects_past_date today data st new_start new_end :
  strptime (data_start_date data) = Some new_start →
  strptime (data_end_date data) = Some new_end →
  new_start < today ∨ new_end < today →
  book_resource today data st =
  (Raise (Exception "You cannot book a past date"), st).
Proof.
  intros Hs He Hpast. unfold book_resource. rewrite Hs, He.
  rewrite decide_True by lia. done.
Qed.

(** C6: a request with non-past dates for which the store already holds a
    reservation of the same resource with the same start and end date fails
    with the duplicate error, whatever else the store holds, and the state
    after the call is the state before it. *)
Theorem book_resource_rejects_duplicate today data st new_start new_end b :
  strptime (data_start_date data) = Some new_start →
  strptime (data_end_date data) = Some new_end →
  today ≤ new_start → today ≤ new_end →
  b ∈ bookings st →
  resource b = data_resource data →
  start_date b = new_start → end_date b = new_end →
  book_resource today data st =
  (Raise (Exception ("The resource is already booking from " +:+
                     isoformat new_start +:+ " to " +:+
                     isoformat new_end)), st).
Proof.
  intros Hs He Hns Hne Hb Hr Hbs Hbe. unfold book_resource. rewrite Hs, He.
  rewrite decide_False by lia.
  rewrite (has_data_elem_of _ b); [done|].
  apply elem_of_objects_exact. done.
Qed.

(** C9: whenever the operation does not return the success response (it
    raises the past-date error, the duplicate error or any other exception,
    or it returns the conflict response), the state after the call is the
    state before it: nothing is inserted. *)
Theorem book_resource_no_commit_no_change today data st out st' :
  book_resource today data st = (out, st') →
  (∀ id, out ≠ Ok (BookingSuccessful id)) →
  st' = st.
Proof.
  intros Hrun Hout.
  destruct (book_resource_cases today data st)
    as [[e He]|(ns & ne & _ & _ & _ & _ & _ & [[_ Hc]|[_ Hc]])].
  - rewrite He in Hrun. by inversion Hrun.
  - rewrite Hc in Hrun. unfold commit, save_booking in Hrun.
    inversion Hrun; subst. by destruct (Hout (next_id st)).
  - rewrite Hc in Hrun. by inversion Hrun.
Qed.

End Booking.

(** ** The conflict detector *)

Section Detector.
Context `{Platform}.

Lemma loop_body_lookup ns ne blocked i curr c av :
  blocked !! i = Some curr →
  loop_body ns ne blocked (length blocked) i (c, av) =
  Ok ((c + (if decide (conflicting (curr_start_of curr) (curr_end_of curr)
                                   ns ne) then 1 else 0))%nat,
      av ++ match drop (S i) blocked with
            | [] => []
            | next :: _ =>
                if decide (curr_end_of curr ≤ curr_start_of next)
                then [render (curr_end_of curr, curr_start_of next)] else []
            end).
Proof.
  intros Hi.
  pose proof (lookup_lt_Some _ _ _ Hi) as Hlt.
  pose proof (loop_body_at ns ne (take i blocked) curr (drop (S i) blocked)
                           c av) as Hbody.
  rewrite (take_drop_middle blocked i curr Hi) in Hbody.
  rewrite length_take in Hbody.
  by replace (i `min` length blocked)%nat with i in Hbody by lia.
Qed.

Lemma lookup_consecutive {A} (l : list A) i x y :
  consecutive l !! i = Some (x, y) ↔ l !! i = Some x ∧ l !! S i = Some y.
Proof.
  unfold consecutive. revert i. induction l as [|a l IH]; intros i.
  - simpl. rewrite !lookup_nil. by split; [|intros []].
  - destruct l as [|b l].
    + simpl. destruct i; simpl; rewrite ?lookup_nil; by split; [|intros []].
    + destruct i as [|i].
      * simpl. split; [by intros [= -> ->]|by intros [[= ->] [= ->]]].
      * change (zip (a :: b :: l) (tail (a :: b :: l)) !! S i)
          with (zip (b :: l) (tail (b :: l)) !! i).
        rewrite IH. done.
Qed.

(** Every gap comes from a consecutive pair that satisfies the gap rule, and
    every such pair yields its gap. *)
Lemma elem_of_gaps blocked g :
  g ∈ gaps blocked ↔
  ∃ i curr next,
    blocked !! i = Some curr ∧ blocked !! S i = Some next ∧
    curr_end_of curr ≤ curr_start_of next ∧
    g = (curr_end_of curr, curr_start_of next).
Proof.
  unfold gaps. rewrite list_elem_of_fmap. split.
  - intros ([curr next] & -> & Hin).
    apply list_elem_of_filter in Hin as [Hle Hin].
    apply list_elem_of_lookup in Hin as [i Hi].
    apply lookup_consecutive in Hi as [? ?].
    exists i, curr, next. done.
  - intros (i & curr & next & Hc & Hn & Hle & ->).
    exists (curr, next). split; [done|].
    apply list_elem_of_filter. split; [done|].
    apply list_elem_of_lookup. exists i.
    by apply lookup_consecutive.
Qed.

Lemma gaps_length blocked : (length (gaps blocked) ≤ length blocked - 1)%nat.
Proof.
  unfold gaps, consecutive. rewrite length_fmap.
  etrans; [apply length_filter|].
  rewrite length_zip. destruct blocked; cbn [length tail]; lia.
Qed.

(** C1: in the iteration for a fetched reservation, the conflict counter goes
    up by one if [curr_start ≤ new_start < curr_end] or
    [curr_start ≤ new_end < curr_end], and stays as it is otherwise, so the
    walk returns the number of fetched reservations the rule fires on.  A
    candidate that strictly contains the reservation is not counted, and a
    candidate with [new_start ≤ new_end] whose start equals the
    reservation's end is not counted. *)
Theorem overlap_rule_counts new_start new_end blocked :
  (∃ available_dates,
      walk new_start new_end blocked =
      Ok (length (filter (λ d,
                    curr_start_of d ≤ new_start < curr_end_of d ∨
                    curr_start_of d ≤ new_end < curr_end_of d) blocked),
          available_dates)) ∧
  (∀ i curr conflicts available_dates,
      blocked !! i = Some curr →
      ∃ conflicts' available_dates',
        loop_body new_start new_end blocked (length blocked) i
                  (conflicts, available_dates) =
        Ok (conflicts', available_dates') ∧
        (curr_start_of curr ≤ new_start < curr_end_of curr ∨
         curr_start_of curr ≤ new_end < curr_end_of curr →
         conflicts' = S conflicts) ∧
        (¬ (curr_start_of curr ≤ new_start < curr_end_of curr ∨
            curr_start_of curr ≤ new_end < curr_end_of curr) →
         conflicts' = conflicts) ∧
        (new_start < curr_start_of curr → new_end > curr_end_of curr →
         conflicts' = conflicts) ∧
        (new_start = curr_end_of curr → new_start ≤ new_end →
         conflicts' = conflicts)).
Proof.
  split.
  - eexists. apply walk_spec.
  - intros i curr c av Hi. do 2 eexists.
    split; [by apply loop_body_lookup|].
    unfold conflicting.
    destruct (decide _) as [Hyes|Hno]; repeat split; intros; lia.
Qed.

(** C7: the walk emits, in order, one gap [(curr_end, next_start)] for each
    consecutive pair [(curr, next)] of the fetched sequence with
    [curr_end ≤ next_start], and nothing else; the list is the same for
    every candidate range, whatever the conflict counter. *)
Theorem gaps_determined_by_sequence new_start new_end blocked :
  (∃ conflicts,
      walk new_start new_end blocked = Ok (conflicts, render <$> gaps blocked)) ∧
  (∀ g, g ∈ gaps blocked ↔
        ∃ i curr next,
          blocked !! i = Some curr ∧ blocked !! S i = Some next ∧
          curr_end_of curr ≤ curr_start_of next ∧
          g = (curr_end_of curr, curr_start_of next)) ∧
  (∀ new_start' new_end', ∃ conflicts conflicts' available_dates,
      walk new_start new_end blocked = Ok (conflicts, available_dates) ∧
      walk new_start' new_end' blocked = Ok (conflicts', available_dates)).
Proof.
  split; [|split].
  - eexists. apply walk_spec.
  - apply elem_of_gaps.
  - intros ns' ne'. do 3 eexists. split; apply walk_spec.
Qed.

Lemma gaps_lower_bound d rest :
  StronglySorted start_le (d :: rest) →
  Forall (λ x, curr_start_of x ≤ curr_end_of x) (d :: rest) →
  Forall (λ g : date * date, curr_start_of d ≤ g.1 ∧ curr_start_of d ≤ g.2)
         (gaps (d :: rest)).
Proof.
  revert d. induction rest as [|d' rest IH]; intros d Hs Hwf.
  - constructor.
  - rewrite gaps_cons_cons.
    apply StronglySorted_inv in Hs as [Hs Hd].
    apply Forall_cons in Hwf as [Hwd Hwf].
    apply Forall_cons in Hd as [Hdd' Hd]. unfold start_le in Hdd'.
    apply Forall_app. split.
    + destruct (decide _); repeat constructor; simpl; lia.
    + eapply Forall_impl; [by apply IH|]. simpl. intros g [? ?]. lia.
Qed.

(** C8: for a fetched sequence in ascending order of start date in which
    every reservation has [start ≤ end], the gap list is in walk order (the
    gaps of the consecutive pairs, as they come) and ascending: every date of
    a gap is on or after every date of each earlier gap. *)
Theorem gaps_ascending blocked :
  StronglySorted start_le blocked →
  Forall (λ d, curr_start_of d ≤ curr_end_of d) blocked →
  (∀ new_start new_end, ∃ conflicts,
      walk new_start new_end blocked =
      Ok (conflicts, render <$> gaps blocked)) ∧
  StronglySorted gap_le (gaps blocked).
Proof.
  intros Hs Hwf. split; [intros; eexists; apply walk_spec|].
  induction blocked as [|d rest IH]; [constructor|].
  destruct rest as [|d' rest]; [constructor|].
  rewrite gaps_cons_cons.
  pose proof Hs as Hs0. pose proof Hwf as Hwf0.
  apply StronglySorted_inv in Hs as [Hs Hd].
  apply Forall_cons in Hwf as [Hwd Hwf].
  specialize (IH Hs Hwf).
  destruct (decide (curr_end_of d ≤ curr_start_of d')) as [Hgap|]; [|done].
  simpl. constructor; [done|].
  eapply Forall_impl; [by apply gaps_lower_bound|].
  unfold gap_le. simpl. intros g [? ?]. lia.
Qed.

End Detector.

(** ** Commits and the hidden principal *)

Section Commit.
Context `{Platform}.

Lemma commit_eq data ns ne st :
  commit data ns ne st =
  (Ok (BookingSuccessful (next_id st)),
   mkState (bookings st ++
              [mkBooking (next_id st) (self_user_id st) (data_resource data)
                         ns ne])
           (users st) (r st) (self_user_id st) (S (next_id st))).
Proof. done. Qed.

(** What a success response says about the call. *)
Lemma book_resource_success_inv today data st id st' :
  book_resource today data st = (Ok (BookingSuccessful id), st') →
  ∃ ns ne,
    strptime (data_start_date data) = Some ns ∧
    strptime (data_end_date data) = Some ne ∧
    today ≤ ns ∧ today ≤ ne ∧
    objects_exact (data_resource data) ns ne (bookings st) = [] ∧
    conflict_count ns ne
      (to_json <$> objects_open (data_resource data) today (bookings st)) =
    0%nat ∧
    (Ok (BookingSuccessful id), st') = commit data ns ne st.
Proof.
  intros Hrun.
  destruct (book_resource_cases today data st)
    as [[e He]|(ns & ne & Hs & Hen & Hns & Hne & Hex & [[Hz Hc]|[_ Hc]])].
  - rewrite He in Hrun. by inversion Hrun.
  - exists ns, ne. rewrite <- Hrun, Hc. done.
  - rewrite Hc in Hrun. by inversion Hrun.
Qed.

(** What a conflict response says about the call. *)
Lemma book_resource_conflicts_inv today data st n avail st' :
  book_resource today data st = (Ok (ConflictsFound n avail), st') →
  ∃ ns ne,
    strptime (data_start_date data) = Some ns ∧
    strptime (data_end_date data) = Some ne ∧
    let blocked :=
      to_json <$> objects_open (data_resource data) today (bookings st) in
    n = conflict_count ns ne blocked ∧ n ≠ 0%nat ∧
    avail = render <$> gaps blocked ∧ st' = st.
Proof.
  intros Hrun.
  destruct (book_resource_cases today data st)
    as [[e He]|(ns & ne & Hs & Hen & Hns & Hne & Hex & [[Hz Hc]|[Hnz Hc]])].
  - rewrite He in Hrun. by inversion Hrun.
  - rewrite Hc, commit_eq in Hrun. by inversion Hrun.
  - rewrite Hc in Hrun. inversion Hrun; subst.
    exists ns, ne. done.
Qed.


(** C4: the gap list of a conflict response is the list of the windows
    [(curr_end, next_start)] between consecutive fetched reservations with
    [curr_end ≤ next_start], rendered in order.  Each entry lies between two
    fetched reservations, so there are fewer entries than fetched
    reservations, and the list has no entry from today to the first fetched
    reservation or after the last one. *)
Theorem conflict_response_gaps_between_only today data st n avail st' :
  book_resource today data st = (Ok (ConflictsFound n avail), st') →
  let blocked :=
    to_json <$> objects_open (data_resource data) today (bookings st) in
  avail = render <$> gaps blocked ∧
  (length avail < length blocked)%nat ∧
  (∀ g, g ∈ gaps blocked →
        ∃ i curr next,
          blocked !! i = Some curr ∧ blocked !! S i = Some next ∧
          curr_end_of curr ≤ curr_start_of next ∧
          g = (curr_end_of curr, curr_start_of next)).
Proof.
  intros Hrun blocked.
  apply book_resource_conflicts_inv in Hrun
    as (ns & ne & _ & _ & Hn & Hnz & Hav & _).
  fold blocked in Hn, Hav. split; [done|]. split.
  - rewrite Hav, length_fmap.
    pose proof (gaps_length blocked) as Hlen.
    destruct blocked; [|simpl in *; lia].
    subst n. by rewrite conflict_count_nil in Hnz.
  - intros g Hg. by apply elem_of_gaps.
Qed.

Lemma step_self_user_id st c :
  self_user_id (step st c) =
  match c with
  | CallSession session_id =>
      match session_hit session_id st with
      | Some uid => Some uid
      | None => self_user_id st
      end
  | _ => self_user_id st
  end.
Proof.
  destruct c as [mail pass uuid|sid|today data|today]; simpl.
  - unfold login. destruct (find_user mail st); [|done].
    by destruct (checkpw _ _).
  - unfold get_user_from_session_id, session_hit.
    destruct (r st !! _) as [uid|]; [|done].
    destruct (decide (uid = EmptyString)); [done|].
    by destruct (ObjectId_is_valid uid).
  - destruct (book_resource_cases today data st)
      as [[e He]|(ns & ne & _ & _ & _ & _ & _ & [[_ Hc]|[_ Hc]])];
      rewrite ?He, ?Hc; done.
  - done.
Qed.

(** C10: the booking call takes no principal.  The [user] of the reservation
    it persists is the hidden field of the service object; after any
    sequence of calls that field holds the identifier found by the most
    recent session lookup that found one ([None] if there was none, as on a
    fresh object); a lookup that finds an identifier stores it and one that
    finds none changes nothing; and the listing of bookings selects by the
    same field. *)
Theorem reservation_attributed_to_hidden_user :
  (∀ today data st id st',
      book_resource today data st = (Ok (BookingSuccessful id), st') →
      ∃ b, bookings st' = bookings st ++ [b] ∧ user b = self_user_id st) ∧
  (∀ st cs, self_user_id (run st cs) = last_lookup (self_user_id st) st cs) ∧
  (∀ session_id st,
      match session_hit session_id st with
      | Some uid =>
          self_user_id (get_user_from_session_id session_id st).2 = Some uid
      | None => get_user_from_session_id session_id st = (Ok None, st)
      end) ∧
  (∀ today st x,
      x ∈ list_bookings today st ↔
      ∃ b, b ∈ bookings st ∧ user b = self_user_id st ∧ today ≤ end_date b ∧
           x = convert_json b) ∧
  (∀ bs us redis n today data id st',
      book_resource today data (init_state bs us redis n) =
      (Ok (BookingSuccessful id), st') →
      ∃ b, bookings st' = bs ++ [b] ∧ user b = None).
Proof.
  assert (Hbook : ∀ today data st id st',
             book_resource today data st = (Ok (BookingSuccessful id), st') →
             ∃ b, bookings st' = bookings st ++ [b] ∧
                  user b = self_user_id st).
  { intros today data st id st' Hrun.
    apply book_resource_success_inv in Hrun
      as (ns & ne & _ & _ & _ & _ & _ & _ & Hc).
    rewrite commit_eq in Hc. inversion Hc; subst. eexists. done. }
  split; [exact Hbook|]. split; [|split; [|split]].
  - intros st cs. unfold run. revert st.
    induction cs as [|c cs IH]; intros st; [done|].
    cbn [foldl last_lookup]. rewrite IH, step_self_user_id.
    by destruct c.
  - intros sid st. unfold session_hit, get_user_from_session_id.
    destruct (r st !! _) as [uid|]; [|done].
    destruct (decide (uid = EmptyString)); [done|].
    by destruct (ObjectId_is_valid uid).
  - intros today st x. unfold list_bookings.
    rewrite list_elem_of_fmap. split.
    + intros (b & -> & Hb). apply list_elem_of_filter in Hb as [[? ?] ?].
      exists b. done.
    + intros (b & Hb & Hu & He & ->). exists b. split; [done|].
      apply list_elem_of_filter. done.
  - intros bs us redis n today data id st' Hrun.
    apply Hbook in Hrun. done.
Qed.

End Commit.

(** ** The service on concrete requests *)

Section Examples.
Import Scenario.
#[local] Existing Instance Calendar.utc.

(** The two candidates of the design's test list against a reservation from
    1 to 5 June: one that starts on 4 June is flagged, one that starts on
    5 June is committed. *)
Example candidate_starting_inside_flagged :
  book_resource (may 1) (request "2025-06-04" "2025-06-10")
                (holding (june 1) (june 5)) =
  (Ok (ConflictsFound 1 []), holding (june 1) (june 5)).
Proof. evaluate. Qed.

Example candidate_touching_end_clear :
  (book_resource (may 1) (request "2025-06-05" "2025-06-10")
                 (holding (june 1) (june 5))).1 =
  Ok (BookingSuccessful 1).
Proof. evaluate. Qed.

(** The asymmetry of the rule: a candidate from 1 to 10 June around a
    reservation from 3 to 5 June is committed. *)
Example candidate_containing_clear :
  (book_resource (may 1) (request "2025-06-01" "2025-06-10")
                 (holding (june 3) (june 5))).1 =
  Ok (BookingSuccessful 1).
Proof. evaluate. Qed.

Example conflict_message :
  message (ConflictsFound 1 []) =
  "1 Conflicts found! These are the available timeframes. Beyond these, there are no open reservations.".
Proof. evaluate. Qed.

(** C1, as stated, fails: the hall is reserved from 1 to 5 June, and a
    request that starts on 5 June, the day that reservation ends, and ends
    on 3 June is counted as a conflict. *)
Lemma start_at_existing_end_counted :
  strptime "2025-06-05" = Some (end_date (mkBooking 0 (Some alice) hall
                                                    (june 1) (june 5))) ∧
  book_resource (may 1) (request "2025-06-05" "2025-06-03")
                (holding (june 1) (june 5)) =
  (Ok (ConflictsFound 1 []), holding (june 1) (june 5)).
Proof. split; evaluate. Qed.

Lemma overlap_rule_counts_witness :
  ∃ conflicts' available_dates',
    loop_body (june 4) (june 10)
              [to_json (mkBooking 0 (Some alice) hall (june 1) (june 5))]
              1 0 (0%nat, []) =
    Ok (conflicts', available_dates') ∧ conflicts' = 1%nat.
Proof.
  pose (curr := to_json (mkBooking 0 (Some alice) hall (june 1) (june 5))).
  destruct (proj2 (overlap_rule_counts (june 4) (june 10) [curr])
                  0%nat curr 0%nat [] eq_refl)
    as (c' & av' & Hrun & Hyes & _).
  exists c', av'. split; [exact Hrun|].
  apply Hyes. left. split; evaluate.
Defined.

(** C2: a reservation of the hall that began on 30 May and runs to 8 June is
    not in the sequence fetched on 1 June, although its end date is after
    that day; a request for 1 to 3 June, which the overlap rule would flag
    against it, is committed. *)
Theorem in_progress_reservation_not_fetched :
  objects_open hall (june 1) (bookings (holding (may 30) (june 8))) = [] ∧
  conflicting (may 30) (june 8) (june 1) (june 3) ∧
  (book_resource (june 1) (request "2025-06-01" "2025-06-03")
                 (holding (may 30) (june 8))).1 =
  Ok (BookingSuccessful 1).
Proof. split; [evaluate|]. split; [left; split; evaluate|evaluate]. Qed.



(** C4, as stated, fails: on 1 June the hall has one reservation, from 10 to
    20 June; a request for 12 to 15 June gets the conflict response with an
    empty gap list, with no window from 1 June to 10 June and none after
    20 June. *)
Lemma single_reservation_no_gaps :
  june 1 < june 10 ∧
  book_resource (june 1) (request "2025-06-12" "2025-06-15")
                (holding (june 10) (june 20)) =
  (Ok (ConflictsFound 1 []), holding (june 10) (june 20)).
Proof. split; evaluate. Qed.

Lemma conflict_response_gaps_between_only_witness :
  let blocked :=
    to_json <$> objects_open hall (june 1)
                             (bookings (holding (june 10) (june 20))) in
  [] = render <$> gaps blocked ∧ (0 < length blocked)%nat.
Proof.
  intros blocked.
  destruct (conflict_response_gaps_between_only
              (june 1) (request "2025-06-12" "2025-06-15")
              (holding (june 10) (june 20)) 1 []
              (holding (june 10) (june 20)))
    as (Hav & Hlen & _); [evaluate|].
  split; [exact Hav|exact Hlen].
Defined.

Lemma book_resource_rejects_past_date_witness :
  book_resource (june 1) (request "2025-05-20" "2025-06-10")
                (holding (june 10) (june 20)) =
  (Raise (Exception "You cannot book a past date"),
   holding (june 10) (june 20)).
Proof.
  apply (book_resource_rejects_past_date _ _ _ (may 20) (june 10));
    [evaluate|evaluate|left; evaluate].
Defined.

Lemma book_resource_rejects_duplicate_witness :
  book_resource (june 1) (request "2025-06-10" "2025-06-20")
                (holding (june 10) (june 20)) =
  (Raise (Exception
            "The resource is already booking from 2025-06-10 to 2025-06-20"),
   holding (june 10) (june 20)).
Proof.
  rewrite (book_resource_rejects_duplicate
             (june 1) (request "2025-06-10" "2025-06-20")
             (holding (june 10) (june 20)) (june 10) (june 20)
             (mkBooking 0 (Some alice) hall (june 10) (june 20)));
    first [evaluate | apply list_elem_of_here].
Defined.

Lemma book_resource_no_commit_no_change_witness :
  (book_resource (june 1) (request "2025-06-12" "2025-06-15")
                 (holding (june 10) (june 20))).2 =
  holding (june 10) (june 20).
Proof.
  apply (book_resource_no_commit_no_change
           (june 1) (request "2025-06-12" "2025-06-15")
           (holding (june 10) (june 20))
           (Ok (ConflictsFound 1 []))); [evaluate|].
  intros id. discriminate.
Defined.

Lemma gaps_determined_by_sequence_witness :
  (june 3, june 10) ∈
  gaps (to_json <$> [mkBooking 0 None hall (june 1) (june 3);
                     mkBooking 1 None hall (june 10) (june 12)]).
Proof.
  apply (proj1 (proj2 (gaps_determined_by_sequence (june 5) (june 7) _))).
  exists 0%nat, (to_json (mkBooking 0 None hall (june 1) (june 3))),
         (to_json (mkBooking 1 None hall (june 10) (june 12))).
  repeat split; evaluate.
Defined.

(** C8, as stated, fails: three requests accepted on 1 June leave the hall
    with the reservations 1-4 June, 5 June-2 June and 6-7 June; the fetched
    sequence is in ascending order of start date, and the gap list of the
    next conflict response is (4 June, 5 June), (2 June, 6 June): the second
    gap starts before the first. *)
Lemma gaps_not_ascending :
  let blocked :=
    to_json <$> objects_open hall (june 1) (bookings (run fresh three_calls))
  in
  blocked ≠ [] ∧ StronglySorted start_le blocked ∧
  gaps blocked = [(june 4, june 5); (june 2, june 6)] ∧
  ¬ StronglySorted gap_le (gaps blocked) ∧
  (book_resource (june 1) (request "2025-06-02" "2025-06-03")
                 (run fresh three_calls)).1 =
  Ok (ConflictsFound 1
        [("Wednesday, 04 June, 2025", "Thursday, 05 June, 2025");
         ("Monday, 02 June, 2025", "Friday, 06 June, 2025")]).
Proof.
  intros blocked. split; [evaluate|]. split; [apply fetched_sorted|].
  split; [evaluate|]. split; [|evaluate].
  replace (gaps blocked) with [(june 4, june 5); (june 2, june 6)]
    by evaluate.
  intros Hs. apply StronglySorted_inv in Hs as [_ Hs].
  apply Forall_cons in Hs as [(Hle & _) _].
  revert Hle. evaluate.
Qed.

Lemma gaps_ascending_witness :
  StronglySorted gap_le
    (gaps (to_json <$> [mkBooking 0 None hall (june 1) (june 3);
                        mkBooking 1 None hall (june 10) (june 12);
                        mkBooking 2 None hall (june 15) (june 20)])).
Proof.
  apply gaps_ascending.
  - apply to_json_sorted. repeat constructor; evaluate.
  - repeat constructor; evaluate.
Defined.

Lemma reservation_attributed_to_hidden_user_witness :
  ∃ b, bookings (run with_session
                     [CallSession "7d1c";
                      CallBook (june 1) (request "2025-06-02" "2025-06-03")])
       = [b] ∧
       user b = Some alice.
Proof.
  destruct reservation_attributed_to_hidden_user as (Hbook & _).
  destruct (Hbook (june 1) (request "2025-06-02" "2025-06-03")
                  (run with_session [CallSession "7d1c"]) 0%nat
                  (run with_session
                     [CallSession "7d1c";
                      CallBook (june 1) (request "2025-06-02" "2025-06-03")]))
    as (b & Hb & Hu); [evaluate|].
  exists b. split; [exact Hb|]. rewrite Hu. evaluate.
Defined.

End Examples.

(** * Further properties of the service *)

(** ** The booking operation, beyond its guards *)

Section Timeline.
Context `{Platform}.


Lemma objects_exact_nil res s e bs :
  objects_exact res s e bs = [] ↔
  ∀ b, b ∈ bs → ¬ (resource b = res ∧ start_date b = s ∧ end_date b = e).
Proof.
  split.
  - intros Hnil b Hb Hm.
    assert (Hin : b ∈ objects_exact res s e bs)
      by (apply elem_of_objects_exact; tauto).
    rewrite Hnil in Hin. by apply elem_of_nil in Hin.
  - intros Hall. destruct (objects_exact res s e bs) as [|b l] eqn:E; [done|].
    assert (Hin : b ∈ objects_exact res s e bs)
      by (rewrite E; apply list_elem_of_here).
    apply elem_of_objects_exact in Hin as (Hb & Hm).
    by destruct (Hall b Hb).
Qed.



(** X3: a request that was committed is rejected as a duplicate when it is
    sent again, on the same day or on any later day on which it is still not
    past, and the second call changes nothing. *)
Theorem repeated_request_is_duplicate today data st id st' :
  book_resource today data st = (Ok (BookingSuccessful id), st') →
  ∃ new_start new_end,
    strptime (data_start_date data) = Some new_start ∧
    strptime (data_end_date data) = Some new_end ∧
    ∀ today', today' ≤ new_start → today' ≤ new_end →
      book_resource today' data st' =
      (Raise (Exception ("The resource is already booking from " +:+
                         isoformat new_start +:+ " to " +:+
                         isoformat new_end)), st').
Proof.
  intros Hrun.
  apply book_resource_success_inv in Hrun
    as (ns & ne & Hs & He & _ & _ & _ & _ & Hc).
  rewrite commit_eq in Hc. inversion Hc; subst. clear Hc.
  exists ns, ne. split; [done|]. split; [done|].
  intros today' Hns Hne. unfold book_resource. rewrite Hs, He.
  rewrite decide_False by lia.
  rewrite (has_data_elem_of _ (mkBooking (next_id st) (self_user_id st)
                                         (data_resource data) ns ne));
    [done|].
  apply elem_of_objects_exact. split; [|done]. cbn [bookings].
  apply elem_of_app. right. apply list_elem_of_here.
Qed.

(** X4: after a commit, the fetch for the resource returns the new
    reservation exactly once, next to what it returned before, in ascending
    order of start date. *)
Theorem committed_reservation_is_fetched today data st id st' :
  book_resource today data st = (Ok (BookingSuccessful id), st') →
  ∃ b,
    booking_id b = id ∧
    (b ∉ objects_open (data_resource data) today (bookings st)) ∧
    Permutation
      (objects_open (data_resource data) today (bookings st'))
      (b :: objects_open (data_resource data) today (bookings st)) ∧
    StronglySorted booking_start_le
      (objects_open (data_resource data) today (bookings st')).
Proof.
  intros Hrun.
  apply book_resource_success_inv in Hrun
    as (ns & ne & Hs & He & Hns & Hne & Hex & _ & Hc).
  rewrite commit_eq in Hc. inversion Hc; subst. clear Hc.
  exists (mkBooking (next_id st) (self_user_id st) (data_resource data)
                    ns ne).
  split; [done|]. cbn [bookings]. split; [|split].
  - intros Hin. apply elem_of_objects_open in Hin as (Hb & _).
    eapply (proj1 (objects_exact_nil _ _ _ _) Hex); [exact Hb|done].
  - unfold objects_open. rewrite !order_by_start_date_perm.
    rewrite filter_app, filter_cons_True by (simpl; split; [done|lia]).
    rewrite filter_nil. by rewrite <- Permutation_cons_append.
  - apply order_by_start_date_sorted.
Qed.

(** X5: on a server at or east of UTC, a committed request has neither its
    start date nor its end date inside [start, end) of any stored
    reservation of the resource that starts today or later. *)
Theorem committed_request_clear_of_fetched today data st id st'
    new_start new_end b :
  0 ≤ utc_offset < 86400 →
  book_resource today data st = (Ok (BookingSuccessful id), st') →
  strptime (data_start_date data) = Some new_start →
  strptime (data_end_date data) = Some new_end →
  b ∈ bookings st → resource b = data_resource data →
  today ≤ start_date b →
  ¬ (start_date b ≤ new_start < end_date b) ∧
  ¬ (start_date b ≤ new_end < end_date b).
Proof.
  intros Htz Hrun Hs He Hb Hr Hle.
  apply book_resource_success_inv in Hrun
    as (ns & ne & Hs' & He' & _ & _ & _ & Hz & _).
  rewrite Hs in Hs'. rewrite He in He'.
  injection Hs' as <-. injection He' as <-.
  unfold conflict_count in Hz. apply nil_length_inv in Hz.
  assert (Hin : to_json b ∈
                to_json <$> objects_open (data_resource data) today
                                         (bookings st)).
  { apply list_elem_of_fmap_2. by apply elem_of_objects_open. }
  assert (Hno : ¬ conflicting (curr_start_of (to_json b))
                              (curr_end_of (to_json b)) new_start new_end).
  { intros Hyes.
    assert (Hf : to_json b ∈
                 filter (λ d, conflicting (curr_start_of d) (curr_end_of d)
                                          new_start new_end)
                        (to_json <$> objects_open (data_resource data) today
                                                  (bookings st)))
      by (by apply list_elem_of_filter).
    rewrite Hz in Hf. by apply elem_of_nil in Hf. }
  rewrite curr_start_of_to_json, curr_end_of_to_json in Hno.
  rewrite (Z.div_small utc_offset 86400) in Hno by lia.
  unfold conflicting in Hno. lia.
Qed.

(** X6: the walk reads a stored date back as it was stored on a server at
    or east of UTC, and as the day before on a server west of UTC. *)
Theorem stored_date_read_back d :
  (0 ≤ utc_offset < 86400 → fromtimestamp_date (to_json_date d) = d) ∧
  (-86400 ≤ utc_offset < 0 → fromtimestamp_date (to_json_date d) = d - 1).
Proof.
  rewrite fromtimestamp_to_json. split; intros Htz.
  - rewrite Z.div_small by lia. lia.
  - replace (utc_offset / 86400) with (-1); [lia|].
    apply Z.div_unique with (r := utc_offset + 86400); lia.
Qed.

Lemma step_bookings st c :
  bookings (step st c) = bookings st ∨
  ∃ b, bookings (step st c) = bookings st ++ [b].
Proof.
  destruct c as [mail pass uuid|sid|today data|today]; simpl.
  - left. unfold login. destruct (find_user mail st); [|done].
    by destruct (checkpw _ _).
  - left. unfold get_user_from_session_id.
    destruct (r st !! _) as [uid|]; [|done].
    destruct (decide _); [done|]. by destruct (ObjectId_is_valid uid).
  - destruct (book_resource_cases today data st)
      as [[e He]|(ns & ne & _ & _ & _ & _ & _ & [[_ Hc]|[_ Hc]])];
      rewrite ?He, ?Hc; [by left| |by left].
    right. rewrite commit_eq. eexists. done.
  - by left.
Qed.

Lemma step_users st c : users (step st c) = users st.
Proof.
  destruct c as [mail pass uuid|sid|today data|today]; simpl.
  - unfold login. destruct (find_user mail st); [|done].
    by destruct (checkpw _ _).
  - unfold get_user_from_session_id.
    destruct (r st !! _) as [uid|]; [|done].
    destruct (decide _); [done|]. by destruct (ObjectId_is_valid uid).
  - destruct (book_resource_cases today data st)
      as [[e He]|(ns & ne & _ & _ & _ & _ & _ & [[_ Hc]|[_ Hc]])];
      rewrite ?He, ?Hc; done.
  - done.
Qed.

(** X7: no sequence of logins, session lookups, booking calls and listings
    removes or alters a stored reservation or touches the users: the
    reservations before the calls are a prefix of those after them. *)
Theorem calls_only_append_reservations st cs :
  bookings st `prefix_of` bookings (run st cs) ∧
  users (run st cs) = users st.
Proof.
  unfold run. revert st. induction cs as [|c cs IH]; intros st; [done|].
  cbn [foldl]. destruct (IH (step st c)) as [Hb Hu]. split.
  - etrans; [|exact Hb].
    destruct (step_bookings st c) as [->|[b ->]]; [done|].
    by apply prefix_app_r.
  - by rewrite Hu, step_users.
Qed.

End Timeline.

(** ** Sessions and listings *)

Section Sessions.
Context `{Platform}.

Lemma ObjectId_is_valid_nonempty s :
  ObjectId_is_valid s = true → s ≠ EmptyString.
Proof. intros Hv ->. done. Qed.

Lemma find_user_Some mail st u :
  find_user mail st = Some u → u ∈ users st ∧ email u = mail.
Proof.
  unfold find_user. intros Hh. apply head_Some_elem_of in Hh.
  apply list_elem_of_filter in Hh. tauto.
Qed.

(** X8: a login that succeeds returns the given token, and a session lookup
    with that token right after it stores the identifier of the user whose
    password was checked as the hidden principal and, when that identifier
    is an ObjectId, returns a user with that identifier. *)
Theorem login_session_round_trip mail pass uuid st token st' :
  login mail pass uuid st = (Ok token, st') →
  ∃ u,
    u ∈ users st ∧ email u = mail ∧ checkpw pass (password u) = true ∧
    token = uuid ∧
    (ObjectId_is_valid (user_id u) = true →
     ∃ u',
       get_user_from_session_id token st' =
       (Ok (Some u'),
        mkState (bookings st) (users st)
                (<["auth_" +:+ uuid := user_id u]> (r st))
                (Some (user_id u)) (next_id st)) ∧
       u' ∈ users st ∧ user_id u' = user_id u).
Proof.
  unfold login. destruct (find_user mail st) as [u|] eqn:Hf; [|done].
  destruct (checkpw pass (password u)) eqn:Hpw; [|done].
  intros [= <- <-]. apply find_user_Some in Hf as [Hu Hmail].
  exists u. repeat split; try done.
  intros Hvalid. unfold get_user_from_session_id. cbn [r users bookings next_id].
  rewrite lookup_insert_eq.
  rewrite decide_False by (by apply ObjectId_is_valid_nonempty).
  rewrite Hvalid.
  destruct (filter (λ u0, user_id u0 = user_id u) (users st))
    as [|u' l] eqn:Hfl.
  - assert (Hin : u ∈ filter (λ u0, user_id u0 = user_id u) (users st))
      by (by apply list_elem_of_filter).
    rewrite Hfl in Hin. by apply elem_of_nil in Hin.
  - exists u'. split; [done|].
    assert (Hin : u' ∈ filter (λ u0, user_id u0 = user_id u) (users st))
      by (rewrite Hfl; apply list_elem_of_here).
    apply list_elem_of_filter in Hin. tauto.
Qed.

(** X9: a reservation that was just committed belongs to the hidden
    principal and is in the listing of that principal's bookings on the day
    of the call and on every day up to its end date. *)
Theorem committed_reservation_is_listed today data st id st' :
  book_resource today data st = (Ok (BookingSuccessful id), st') →
  ∃ b,
    booking_id b = id ∧ user b = self_user_id st' ∧ today ≤ end_date b ∧
    ∀ today', today' ≤ end_date b →
      convert_json b ∈ list_bookings today' st'.
Proof.
  intros Hrun.
  apply book_resource_success_inv in Hrun
    as (ns & ne & _ & _ & _ & Hne & _ & _ & Hc).
  rewrite commit_eq in Hc. inversion Hc; subst. clear Hc.
  exists (mkBooking (next_id st) (self_user_id st) (data_resource data)
                    ns ne).
  repeat split; try done.
  intros today' Hle. unfold list_bookings. apply list_elem_of_fmap_2.
  apply list_elem_of_filter. split; [done|]. cbn [bookings].
  apply elem_of_app. right. apply list_elem_of_here.
Qed.

End Sessions.

(** ** Accounts *)

Section Registration.
Context `{Platform} `{Hashing}.

Lemma user_exists_false mail st :
  user_exists mail st = false ↔ ∀ u, u ∈ users st → email u ≠ mail.
Proof.
  unfold user_exists. split.
  - destruct (filter _ _) as [|u' l] eqn:Hfl; [|done].
    intros _ u Hu Hmail.
    assert (Hin : u ∈ filter (λ u0, email u0 = mail) (users st))
      by (by apply list_elem_of_filter).
    rewrite Hfl in Hin. by apply elem_of_nil in Hin.
  - intros Hall. destruct (filter _ _) as [|u' l] eqn:Hfl; [done|].
    assert (Hin : u' ∈ filter (λ u0, email u0 = mail) (users st))
      by (rewrite Hfl; apply list_elem_of_here).
    apply list_elem_of_filter in Hin as [Hmail Hu].
    by destruct (Hall u' Hu).
Qed.

(** What a successful registration says about the call. *)
Lemma create_user_success_inv data oid salt st id mail st' :
  create_user data oid salt st = (inr (id, mail), st') →
  ∃ pass,
    id = oid ∧ data !! "email" = Some mail ∧
    data !! "password" = Some pass ∧
    is_Some (data !! "first_name") ∧ is_Some (data !! "last_name") ∧
    default "user" (data !! "role") ∈ role_choices ∧
    (∀ u, u ∈ users st → email u ≠ mail) ∧
    st' = mkState (bookings st)
                  (users st ++
                     [mkUser oid (default "user" (data !! "role")) mail
                             (hashpw pass salt)])
                  (r st) (self_user_id st) (next_id st).
Proof.
  unfold create_user.
  destruct (data !! "email") as [m|]; [|done].
  destruct (user_exists m st) eqn:Hex; [done|].
  destruct (data !! "password") as [pass|]; [|done].
  destruct (data !! "first_name") as [fn|]; [|done].
  destruct (data !! "last_name") as [ln|]; [|done].
  destruct (decide _) as [Hrole|]; [|done].
  intros [= <- <- <-]. exists pass.
  repeat split; try done; try by eexists.
  by apply user_exists_false.
Qed.

(** X10: a registration that fails changes nothing, and a registration with
    an email that a stored user has fails as "User already exists" whatever
    the other fields are, missing ones included. *)
Theorem create_user_failure_changes_nothing data oid salt st :
  (∀ cause st', create_user data oid salt st = (inl cause, st') → st' = st) ∧
  (∀ mail u,
      data !! "email" = Some mail → u ∈ users st → email u = mail →
      create_user data oid salt st = (inl UserAlreadyExists, st)).
Proof.
  split.
  - intros cause st'. unfold create_user.
    destruct (data !! "email") as [m|]; [|by intros [= _ <-]].
    destruct (user_exists m st); [by intros [= _ <-]|].
    destruct (data !! "password") as [pass|]; [|by intros [= _ <-]].
    destruct (data !! "first_name") as [fn|]; [|by intros [= _ <-]].
    destruct (data !! "last_name") as [ln|]; [|by intros [= _ <-]].
    destruct (decide _); [done|by intros [= _ <-]].
  - intros mail u Hmail Hu Heq. unfold create_user. rewrite Hmail.
    destruct (user_exists mail st) eqn:Hex; [done|].
    by destruct (proj1 (user_exists_false mail st) Hex u Hu).
Qed.

(** X11: registration keeps the emails of the stored users pairwise
    distinct. *)
Theorem create_user_keeps_emails_unique data oid salt st :
  NoDup (email <$> users st) →
  NoDup (email <$> users (create_user data oid salt st).2).
Proof.
  intros Hnd.
  destruct (create_user data oid salt st) as [[cause|[id mail]] st'] eqn:Hrun.
  - destruct (create_user_failure_changes_nothing data oid salt st) as [Hf _].
    by rewrite (Hf _ _ Hrun).
  - apply create_user_success_inv in Hrun
      as (pass & _ & _ & _ & _ & _ & _ & Hfresh & ->).
    cbn [snd users]. rewrite fmap_app. apply NoDup_app.
    split; [done|]. split; [|apply NoDup_singleton].
    intros m Hm Hin. apply list_elem_of_singleton in Hin. simpl in Hin.
    subst m. apply list_elem_of_fmap in Hm as (u & Hmail & Hu).
    by destruct (Hfresh u Hu).
Qed.

End Registration.

(** ** The views *)

Section ViewProperties.
Context `{Platform}.

(** X12: the decorator lets the view run only for a request whose token is
    the key of a session of a stored user with the required role, and then
    on the state with that user as the hidden principal; every other request
    ends in 401, in 404 or in the exception of the lookup, with the
    reservations, the users and the sessions as they were. *)
Theorem role_required_gate required f req st out st' :
  Routes.role_required required f req st = (out, st') →
  (bookings st' = bookings st ∧ users st' = users st ∧ r st' = r st ∧
   (out = Ok (Routes.Error "Kindly Provide Your Access Token", 401) ∨
    out = Ok (Routes.Error "Access Token Not Found or Expired", 404) ∨
    out = Ok (Routes.Error "Authorized access only", 401) ∨
    ∃ e, out = Raise e)) ∨
  (∃ session_id u,
      Routes.x_token req = Some session_id ∧ session_id ≠ EmptyString ∧
      r st !! ("auth_" +:+ session_id) = Some (user_id u) ∧
      u ∈ users st ∧ role u = required ∧
      (out, st') =
      f req (mkState (bookings st) (users st) (r st) (Some (user_id u))
                     (next_id st))).
Proof.
  unfold Routes.role_required.
  destruct (Routes.x_token req) as [sid|];
    [|intros [= <- <-]; left; repeat split; by left].
  destruct (decide (sid = EmptyString)) as [|Hsid];
    [intros [= <- <-]; left; repeat split; by left|].
  unfold get_user_from_session_id.
  destruct (r st !! ("auth_" +:+ sid)) as [uid|] eqn:Hr;
    [|intros [= <- <-]; left; repeat split; right; by left].
  destruct (decide (uid = EmptyString));
    [intros [= <- <-]; left; repeat split; right; by left|].
  destruct (ObjectId_is_valid uid);
    [|intros [= <- <-]; left; repeat split; right; right; right; by eexists].
  destruct (filter (λ u, user_id u = uid) (users st)) as [|u l] eqn:Hfl;
    cbn [head]; [intros [= <- <-]; left; repeat split; right; by left|].
  assert (Hin : u ∈ filter (λ u0, user_id u0 = uid) (users st))
    by (rewrite Hfl; apply list_elem_of_here).
  apply list_elem_of_filter in Hin as [<- Hu].
  destruct (decide (role u = required)) as [Hrole|];
    [|intros [= <- <-]; left; repeat split; right; right; by left].
  intros Hf. right. exists sid, u. done.
Qed.

(** X13: the listing view answers 200 only to a request whose token is the
    key of a session of a stored user with the role [user], and the list it
    returns holds exactly the stored reservations of that user whose end
    date is today or later. *)
Theorem list_booking_shows_own_bookings today req st l st' :
  Routes.list_booking today req st = (Ok (Routes.Bookings l, 200), st') →
  ∃ session_id u,
    Routes.x_token req = Some session_id ∧
    r st !! ("auth_" +:+ session_id) = Some (user_id u) ∧
    u ∈ users st ∧ role u = "user" ∧
    ∀ x, x ∈ l ↔
         ∃ b, b ∈ bookings st ∧ user b = Some (user_id u) ∧
              today ≤ end_date b ∧ x = convert_json b.
Proof.
  intros Hrun. unfold Routes.list_booking in Hrun.
  apply role_required_gate in Hrun
    as [(_ & _ & _ & [Ho|[Ho|[Ho|[e Ho]]]])|
        (sid & u & Htok & _ & Hr & Hu & Hrole & Hview)]; try done.
  injection Hview as -> _. exists sid, u. repeat split; try done.
  - intros Hx. unfold list_bookings in Hx.
    apply list_elem_of_fmap in Hx as (b & -> & Hb).
    apply list_elem_of_filter in Hb as [[? ?] ?]. by exists b.
  - intros (b & Hb & Hub & Hle & ->). unfold list_bookings.
    apply list_elem_of_fmap_2. by apply list_elem_of_filter.
Qed.

End ViewProperties.

(** ** The further properties on concrete calls *)

Section FurtherExamples.
Import Scenario Accounts.
#[local] Existing Instance Calendar.utc.
#[local] Existing Instance plain.



Lemma repeated_request_is_duplicate_witness :
  ∃ new_start new_end,
    strptime "2025-06-02" = Some new_start ∧
    strptime "2025-06-03" = Some new_end ∧
    ∀ today', today' ≤ new_start → today' ≤ new_end →
      book_resource today' (request "2025-06-02" "2025-06-03")
        (book_resource (june 1) (request "2025-06-02" "2025-06-03") fresh).2 =
      (Raise (Exception ("The resource is already booking from " +:+
                         isoformat new_start +:+ " to " +:+
                         isoformat new_end)),
       (book_resource (june 1) (request "2025-06-02" "2025-06-03") fresh).2).
Proof.
  apply (repeated_request_is_duplicate
           (june 1) (request "2025-06-02" "2025-06-03") fresh 0%nat).
  evaluate.
Defined.

Lemma committed_reservation_is_fetched_witness :
  ∃ b,
    booking_id b = 1%nat ∧
    (b ∉ objects_open hall (june 1) (bookings (holding (june 10) (june 20)))) ∧
    Permutation
      (objects_open hall (june 1)
         (bookings (book_resource (june 1) (request "2025-06-02" "2025-06-03")
                                  (holding (june 10) (june 20))).2))
      (b :: objects_open hall (june 1)
                         (bookings (holding (june 10) (june 20)))) ∧
    StronglySorted booking_start_le
      (objects_open hall (june 1)
         (bookings (book_resource (june 1) (request "2025-06-02" "2025-06-03")
                                  (holding (june 10) (june 20))).2)).
Proof.
  apply (committed_reservation_is_fetched
           (june 1) (request "2025-06-02" "2025-06-03")
           (holding (june 10) (june 20))).
  evaluate.
Defined.

Lemma committed_request_clear_of_fetched_witness :
  ¬ (june 10 ≤ june 2 < june 20) ∧ ¬ (june 10 ≤ june 3 < june 20).
Proof.
  apply (committed_request_clear_of_fetched
           (june 1) (request "2025-06-02" "2025-06-03")
           (holding (june 10) (june 20)) 1%nat
           (book_resource (june 1) (request "2025-06-02" "2025-06-03")
                          (holding (june 10) (june 20))).2
           (june 2) (june 3)
           (mkBooking 0 (Some alice) hall (june 10) (june 20)));
    first [evaluate | apply list_elem_of_here | split; evaluate].
Defined.

Lemma stored_date_read_back_witness :
  @fromtimestamp_date Calendar.utc (to_json_date (june 1)) = june 1 ∧
  @fromtimestamp_date new_york (to_json_date (june 1)) = june 1 - 1.
Proof.
  split.
  - apply (proj1 (@stored_date_read_back Calendar.utc (june 1))).
    split; evaluate.
  - apply (proj2 (@stored_date_read_back new_york (june 1))).
    split; evaluate.
Defined.

Lemma login_session_round_trip_witness :
  ∃ u,
    u ∈ users registered ∧ email u = "alice@example.org" ∧
    checkpw "secret" (password u) = true ∧ "7d1c" = "7d1c" ∧
    (ObjectId_is_valid (user_id u) = true →
     ∃ u',
       get_user_from_session_id "7d1c"
         (login "alice@example.org" "secret" "7d1c" registered).2 =
       (Ok (Some u'),
        mkState (bookings registered) (users registered)
                (<["auth_" +:+ "7d1c" := user_id u]> (r registered))
                (Some (user_id u)) (next_id registered)) ∧
       u' ∈ users registered ∧ user_id u' = user_id u).
Proof.
  apply (login_session_round_trip "alice@example.org" "secret" "7d1c"
                                  registered "7d1c").
  evaluate.
Defined.

Lemma committed_reservation_is_listed_witness :
  ∃ b,
    booking_id b = 1%nat ∧
    user b =
    self_user_id (book_resource (june 1) (request "2025-06-02" "2025-06-03")
                                (holding (june 10) (june 20))).2 ∧
    june 1 ≤ end_date b ∧
    ∀ today', today' ≤ end_date b →
      convert_json b ∈
      list_bookings today'
        (book_resource (june 1) (request "2025-06-02" "2025-06-03")
                       (holding (june 10) (june 20))).2.
Proof.
  apply (committed_reservation_is_listed
           (june 1) (request "2025-06-02" "2025-06-03")
           (holding (june 10) (june 20))).
  evaluate.
Defined.

Lemma create_user_failure_changes_nothing_witness :
  create_user {["email" := "alice@example.org"]} bob "salt" registered =
  (inl UserAlreadyExists, registered).
Proof.
  apply (proj2 (create_user_failure_changes_nothing
                  {["email" := "alice@example.org"]} bob "salt" registered)
               "alice@example.org"
               (mkUser alice "user" "alice@example.org" "secret"));
    first [evaluate | apply list_elem_of_here].
Defined.

Lemma create_user_keeps_emails_unique_witness :
  NoDup (email <$>
         users (create_user (registration "bob@example.org" "pa:ss" "admin")
                            bob "salt" registered).2).
Proof.
  apply create_user_keeps_emails_unique.
  apply NoDup_singleton.
Defined.

Lemma role_required_gate_witness :
  ∃ u,
    r in_use !! ("auth_" +:+ "7d1c") = Some (user_id u) ∧
    u ∈ users in_use ∧ role u = "user".
Proof.
  destruct (role_required_gate "user"
              (λ _ st, (Ok (Routes.Bookings [], 200), st))
              (with_token "7d1c") in_use
              (Ok (Routes.Bookings [], 200))
              (mkState (bookings in_use) (users in_use) (r in_use)
                       (Some alice) (next_id in_use)))
    as [(_ & _ & _ & [Ho|[Ho|[Ho|[e Ho]]]])|
        (sid & u & Htok & _ & Hr & Hu & Hrole & _)];
    [evaluate|discriminate Ho|discriminate Ho|discriminate Ho
    |discriminate Ho|].
  injection Htok as <-. by exists u.
Defined.

Lemma list_booking_shows_own_bookings_witness :
  ∃ session_id u,
    Routes.x_token (with_token "7d1c") = Some session_id ∧
    r in_use !! ("auth_" +:+ session_id) = Some (user_id u) ∧
    u ∈ users in_use ∧ role u = "user" ∧
    ∀ x, x ∈ [convert_json (mkBooking 0 (Some alice) hall (june 10)
                                      (june 20))] ↔
         ∃ b, b ∈ bookings in_use ∧ user b = Some (user_id u) ∧
              june 1 ≤ end_date b ∧ x = convert_json b.
Proof.
  apply (list_booking_shows_own_bookings
           (june 1) (with_token "7d1c") in_use _
           (mkState (bookings in_use) (users in_use) (r in_use)
                    (Some alice) (next_id in_use))).
  evaluate.
Defined.

(** Five hours west of UTC the walk sees the reservation from 1 to 5 June as
    31 May to 4 June: a request that starts on 4 June is committed. *)
Example west_of_utc_last_day_is_free :
  (@book_resource new_york (may 1) (request "2025-06-04" "2025-06-10")
                  (holding (june 1) (june 5))).1 =
  Ok (BookingSuccessful 1).
Proof. evaluate. Qed.

End FurtherExamples.
